(** * carbon-spec: the test parser ([src/test-parser.js])

    A shallow embedding of [getDomFragment], [itter] and [testParser], the
    functions that walk a tree of feature and scenario test objects and
    register Mocha groups, hooks and tests for them, together with the
    properties of the walker that the specification states.

    Modelling choices, all visible in the definitions below:
    - JavaScript values are a first-order datatype; objects are association
      lists from keys to values (first binding wins) and are never mutated,
      as the parser itself never writes to a test object, a fragment or the
      window;
    - user functions ([set], [given], [getDomFragment], [getActual],
      [comparison]) are identifiers interpreted by a host oracle; the oracle
      sees the history of the calls made so far, so a function may answer
      differently from one call to the next, and every call is recorded;
    - the runner's [describe] runs its callback at once and lets an
      exception of the callback through, as Mocha does; [before],
      [beforeEach] and [it] record the closure they are given;
    - numbers are integers. *)

From Stdlib Require Import List String Ascii ZArith Bool Arith Lia DecimalString.
From Stdlib Require DecimalFacts DecimalNat.
Import ListNotations.
Local Open Scope string_scope.
Local Open Scope list_scope.
#[local] Set Warnings "-register-all".

(** ** Values *)

Definition fid := nat.

Inductive value : Type :=
| VUndefined
| VNull
| VBool (b : bool)
| VNum (n : Z)
| VStr (s : string)
| VFun (f : fid) (arity : nat)        (* a user function and its [length] *)
| VTypeError                          (* an instance of TypeError *)
| VArr (elems : list value)
| VObj (fields : list (string * value))
| VFulfilled (v : value)              (* a promise fulfilled with [v] *)
| VRejected (e : value)               (* a promise rejected with [e] *)
| VPending                            (* a promise that never settles *)
| VUndetermined.                      (* a promise that follows a thenable of
                                         the host: how it settles is the
                                         thenable's to decide *)

Inductive outcome (A : Type) : Type :=
| Ret (a : A)
| Throw (e : value).
Arguments Ret {A} a.
Arguments Throw {A} e.

(** ToBoolean. *)
Definition to_boolean (v : value) : bool :=
  match v with
  | VUndefined | VNull => false
  | VBool b => b
  | VNum n => negb (n =? 0)%Z
  | VStr s => match s with EmptyString => false | String _ _ => true end
  | _ => true
  end.

Definition is_undefined (v : value) : bool :=
  match v with VUndefined => true | _ => false end.

Definition is_nullish (v : value) : bool :=
  match v with VUndefined | VNull => true | _ => false end.

(** [typeof v === 'function'] *)
Definition is_function (v : value) : bool :=
  match v with VFun _ _ => true | _ => false end.

(** [Array.isArray(v)] *)
Definition is_array (v : value) : bool :=
  match v with VArr _ => true | _ => false end.

Definition is_promise (v : value) : bool :=
  match v with
  | VFulfilled _ | VRejected _ | VPending | VUndetermined => true
  | _ => false
  end.

Fixpoint lookup (key : string) (fields : list (string * value)) : value :=
  match fields with
  | [] => VUndefined
  | (k, v) :: rest => if k =? key then v else lookup key rest
  end.

(** [v.key] for a named key.  Reading a property of [null] or [undefined]
    throws a TypeError; a missing property reads as [undefined].  Built-in
    methods are not property values here, they are dispatched by [invoke]. *)
Definition get_prop (v : value) (key : string) : outcome value :=
  match v with
  | VUndefined | VNull => Throw VTypeError
  | VObj fields => Ret (lookup key fields)
  | VArr elems =>
      Ret (if key =? "length" then VNum (Z.of_nat (List.length elems)) else VUndefined)
  | VStr s =>
      Ret (if key =? "length" then VNum (Z.of_nat (String.length s)) else VUndefined)
  | VFun _ arity =>
      Ret (if key =? "length" then VNum (Z.of_nat arity) else VUndefined)
  | _ => Ret VUndefined
  end.

(** [v.key] where the read is known not to throw. *)
Definition field (v : value) (key : string) : value :=
  match get_prop v key with
  | Ret x => x
  | Throw _ => VUndefined
  end.

(** [v] has a [then] that can be called. *)
Definition is_thenable (v : value) : bool :=
  is_promise v ||
  match get_prop v "then" with
  | Ret f => is_function f
  | Throw _ => false
  end.

Definition string_of_nat (i : nat) : string :=
  NilZero.string_of_uint (Nat.to_uint i).

(** [v[i]] for a loop counter [i]. *)
Definition get_index (v : value) (i : nat) : outcome value :=
  match v with
  | VUndefined | VNull => Throw VTypeError
  | VArr elems => Ret (nth i elems VUndefined)
  | VStr s =>
      Ret (match String.get i s with
           | Some c => VStr (String c EmptyString)
           | None => VUndefined
           end)
  | VObj fields => Ret (lookup (string_of_nat i) fields)
  | _ => Ret VUndefined
  end.

(** StringToNumber on a string of decimal digits; the empty string is 0.
    The other numeric strings (a sign, blanks, a fraction, an exponent, a
    radix prefix, Infinity) are not modelled and read as NaN. *)
Definition digits_to_number (s : string) : option Z :=
  match NilEmpty.uint_of_string s with
  | Some u => Some (Z.of_nat (Nat.of_uint u))
  | None => None
  end.

(** ToNumber on the values a [length] can be; [None] is NaN.  An array
    goes through its string: the empty array is 0 and an array of one
    element is that element's string read back.  An object reads as NaN,
    as it does unless it has a [valueOf] or [toString] of its own. *)
Fixpoint to_number (v : value) : option Z :=
  match v with
  | VNull => Some 0%Z
  | VBool b => Some (if b then 1 else 0)%Z
  | VNum n => Some n
  | VStr s => digits_to_number s
  | VArr [] => Some 0%Z
  | VArr [x] =>
      match x with
      | VUndefined | VNull => Some 0%Z
      | VBool _ => None
      | _ => to_number x
      end
  | _ => None
  end.

(** How many times [for (let i = 0; i < len; i++)] runs its body. *)
Definition loop_count (len : value) : nat :=
  match to_number len with
  | Some n => Z.to_nat n
  | None => 0
  end.

(** The template literal [`Set index: ${i}`]. *)
Definition set_index_title (i : nat) : value :=
  VStr ("Set index: " ++ string_of_nat i).

(** ** What the runner is told *)

(** One registration with the runner.  A closure handed to the runner is
    recorded by the variables it captures. *)
Inductive reg : Type :=
| Describe (title : value) (body : list reg)
    (* describe(title, ...), with what its callback registered *)
| Before (test wndw : value)
    (* before(done => test.before(done, wndw)) *)
| BeforeEach (test docFragment wndw : value)
    (* beforeEach(done => test.beforeEach(done, docFragment, wndw)) *)
| It (title test docFragment wndw : value).
    (* it(title, () => test.getActual(docFragment, wndw).then(test.comparison)) *)

(** One call of a user function. *)
Record call_rec : Type := Call {
  callee : fid;
  receiver : value;
  arguments : list value
}.

Definition history := list call_rec.

(** The user functions: what a function returns or throws when it is
    called after the calls of the history. *)
Definition host_t := history -> fid -> value -> list value -> outcome value.

(** ** The monad of the parser: registrations, an exception or a result,
    and the calls made. *)

Definition M (A : Type) : Type := history -> list reg * outcome A * history.

Definition ret {A} (a : A) : M A := fun h => ([], Ret a, h).

Definition throw {A} (e : value) : M A := fun h => ([], Throw e, h).

Definition bind {A B} (m : M A) (f : A -> M B) : M B :=
  fun h =>
    match m h with
    | (r1, Ret a, h1) =>
        match f a h1 with
        | (r2, o, h2) => (r1 ++ r2, o, h2)
        end
    | (r1, Throw e, h1) => (r1, Throw e, h1)
    end.

Definition lift {A} (o : outcome A) : M A := fun h => ([], o, h).

Declare Scope js_scope.
Delimit Scope js_scope with js.
Notation "x <- m ;; k" := (bind m (fun x => k))
  (at level 61, m at next level, right associativity) : js_scope.
Notation "m ;; k" := (bind m (fun _ => k))
  (at level 61, right associativity) : js_scope.
Local Open Scope js_scope.

Definition when (b : bool) (m : M unit) : M unit := if b then m else ret tt.

(** [for (let i = 0; i < n; i++) body(i)] *)
Fixpoint for_from (n i : nat) (body : nat -> M unit) : M unit :=
  match n with
  | 0 => ret tt
  | S n' => body i ;; for_from n' (S i) body
  end.

Definition for_loop (n : nat) (body : nat -> M unit) : M unit := for_from n 0 body.

(** [l.forEach(f)] *)
Definition forEach (f : value -> M unit) : list value -> M unit :=
  fix each (l : list value) : M unit :=
    match l with
    | [] => ret tt
    | x :: l' => f x ;; each l'
    end.

(** The runner's primitives. *)
Definition describe (title : value) (body : M unit) : M unit :=
  fun h => match body h with (r, o, h') => ([Describe title r], o, h') end.

Definition emit (r : reg) : M unit := fun h => ([r], Ret tt, h).

Definition prop (v : value) (key : string) : M value := lift (get_prop v key).

Definition index_of (v : value) (i : nat) : M value := lift (get_index v i).

(** ** The parser *)

(** Lines 61-64: a window given as the fragment and no window given.  The
    result is the pair of [docFragment] and [wndw] the rest of the call
    works with. *)
Definition unwrap (docFragment wndw : value) : outcome (value * value) :=
  match get_prop docFragment "document" with
  | Ret d =>
      if to_boolean d && is_undefined wndw
      then Ret (d, docFragment)
      else Ret (docFragment, wndw)
  | Throw e => Throw e
  end.

Definition walker := value -> value -> value -> M unit.

Section Parser.

Variable host : host_t.

(** Calling the user function [f] with receiver [this]. *)
Definition call_host (f : fid) (this : value) (args : list value) : M value :=
  fun h => ([], host h f this args, h ++ [Call f this args]).

(** Calling a value: only functions can be called. *)
Definition call (f this : value) (args : list value) : M value :=
  match f with
  | VFun id _ => call_host id this args
  | _ => throw VTypeError
  end.

(** [try { m } catch (e) { ... }]: the exception becomes a result. *)
Definition attempt {A} (m : M A) : M (outcome A) :=
  fun h => match m h with (r, o, h') => (r, Ret o, h') end.

(** Resolving a new promise with [x]: a promise is adopted; an object
    with a [then] function makes the new promise follow it, through a
    later call of that [then] which is not run here; another value
    fulfils the new promise. *)
Definition resolved (x : value) : value :=
  if is_promise x then x
  else if is_thenable x then VUndetermined
  else VFulfilled x.

(** A reaction of [then]: the handler, when it is a function, is called
    with the settled value and no receiver, and its completion settles the
    derived promise; otherwise the derived promise settles as [p]. *)
Definition react (handler v p : value) : M value :=
  if is_function handler then
    o <- attempt (call handler VUndefined [v]) ;;
    ret (match o with
         | Ret x => resolved x
         | Throw e => VRejected e
         end)
  else ret p.

(** [Promise.prototype.then], once the promise has settled.  On a
    promise that follows a thenable the reactions wait for the thenable:
    they are not run here, and the derived promise is undetermined too. *)
Definition promise_then (p : value) (args : list value) : M value :=
  match p with
  | VFulfilled v => react (nth 0 args VUndefined) v p
  | VRejected e => react (nth 1 args VUndefined) e p
  | VPending => ret VPending
  | VUndetermined => ret VUndetermined
  | _ => throw VTypeError
  end.

(** The method call [obj.name(...args)]. *)
Definition invoke (obj : value) (name : string) (args : list value) : M value :=
  if (name =? "then") && is_promise obj then promise_then obj args
  else f <- prop obj name ;; call f obj args.

(** [getDomFragment], lines 34-38. *)
Definition getDomFragment (test docFragment : value) : M value :=
  if to_boolean test then
    g <- prop test "getDomFragment" ;;
    if to_boolean g && is_function g
    then invoke test "getDomFragment" [docFragment]
    else ret docFragment
  else ret docFragment.

(** The body of the test that [itter] registers, line 48:
    [test.getActual(docFragment, wndw).then(test.comparison)]. *)
Definition test_body (test docFragment wndw : value) : M value :=
  actual <- invoke test "getActual" [docFragment; wndw] ;;
  comparison <- prop test "comparison" ;;
  invoke actual "then" [comparison].

(** [itter], lines 46-50. *)
Definition itter (test docFragment wndw : value) : M unit :=
  scenario <- prop test "scenario" ;;
  emit (It scenario test docFragment wndw).

(** Lines 72-75 and 84-87: the hooks of a feature. *)
Definition hooks (test docFragment wndw : value) : M unit :=
  b <- prop test "before" ;;
  when (is_function b) (emit (Before test wndw)) ;;
  be <- prop test "beforeEach" ;;
  when (is_function be) (emit (BeforeEach test docFragment wndw)).

(** Lines 68-114, the callback of [tests.forEach].  [walk_tests] stands for
    [testParser(test.tests, ...)] and [walk_inherit] for
    [testParser(test.inherit, ...)].  The [length] that the loops of lines
    76 and 94 compare with at every round is read once, before the first
    round: nothing changes the array in between. *)
Definition visit_with (walk_tests walk_inherit : walker)
    (test docFragment wndw index : value) : M unit :=
  feature <- prop test "feature" ;;
  if to_boolean feature then
    set <- prop test "set" ;;
    if is_function set then
      docFragmentArray <- invoke test "set" [docFragment] ;;
      describe feature (
        hooks test docFragment wndw ;;
        len <- prop docFragmentArray "length" ;;
        for_loop (loop_count len) (fun i =>
          describe (set_index_title i) (
            elem <- index_of docFragmentArray i ;;
            walk_tests elem wndw (VNum (Z.of_nat i)))))
    else
      tests <- prop test "tests" ;;
      if is_array tests then
        describe feature (
          hooks test docFragment wndw ;;
          walk_tests docFragment wndw VUndefined)
      else ret tt
  else
    scenario <- prop test "scenario" ;;
    if to_boolean scenario then
      set <- prop test "set" ;;
      if is_function set then
        docFragmentArray <- invoke test "set" [docFragment] ;;
        len <- prop docFragmentArray "length" ;;
        for_loop (loop_count len) (fun i =>
          describe (set_index_title i) (
            given <- prop test "given" ;;
            if is_function given then
              g <- invoke test "given" [docFragment; wndw; index] ;;
              if to_boolean g then
                elem <- index_of docFragmentArray i ;;
                itter test elem wndw
              else ret tt
            else
              elem <- index_of docFragmentArray i ;;
              itter test elem wndw))
      else
        inherit <- prop test "inherit" ;;
        if is_array inherit then
          describe scenario (
            d <- getDomFragment test docFragment ;;
            walk_inherit d wndw VUndefined)
        else
          given <- prop test "given" ;;
          if is_function given then
            g <- invoke test "given" [docFragment; wndw; index] ;;
            if to_boolean g then
              d <- getDomFragment test docFragment ;;
              itter test d wndw
            else ret tt
          else
            d <- getDomFragment test docFragment ;;
            itter test d wndw
    else ret tt.

(** [testParser] on something that is not an array: lines 61-66. *)
Definition no_walk : walker :=
  fun docFragment wndw index =>
    p <- lift (unwrap docFragment wndw) ;;
    ret tt.

(** [testParser], lines 60-116, and its callback [visit].  The recursion
    is on the tree of test objects: [visit] reaches [testParser] on the
    [tests] and [inherit] properties of the object it is given. *)
Fixpoint testParser (tests : value) : walker :=
  fun docFragment wndw index =>
    p <- lift (unwrap docFragment wndw) ;;
    match tests with
    | VArr l =>
        forEach (fun test => visit test (fst p) (snd p) index) l
    | _ => ret tt
    end
with visit (test : value) : walker :=
  match test with
  | VObj fields =>
      let sub :=
        fix sub (fs : list (string * value)) (key : string) : walker :=
          match fs with
          | [] => no_walk
          | (k, v) :: rest => if k =? key then testParser v else sub rest key
          end in
      visit_with (sub fields "tests") (sub fields "inherit") test
  | _ => visit_with no_walk no_walk test
  end.

End Parser.

Arguments testParser host tests docFragment wndw index : rename.
Arguments visit host test docFragment wndw index : rename.


(** ** The kinds of test object

    The branch of lines 68-114 that a test object takes. *)

Inductive kind : Type :=
| Unreadable        (* null or undefined: reading [feature] throws *)
| FanOutGroup       (* feature with a [set] function, line 69 *)
| PlainGroup        (* feature with an array of [tests], line 82 *)
| IdleGroup         (* feature with neither *)
| FanOutLeaf        (* scenario with a [set] function, line 92 *)
| InheritingLeaf    (* scenario with an array [inherit], line 104 *)
| ConditionalLeaf   (* scenario with a [given] function, line 108 *)
| DirectLeaf        (* any other scenario, line 111 *)
| Skipped.          (* neither feature nor scenario *)

Definition classify (test : value) : kind :=
  if is_nullish test then Unreadable
  else if to_boolean (field test "feature") then
    if is_function (field test "set") then FanOutGroup
    else if is_array (field test "tests") then PlainGroup
    else IdleGroup
  else if to_boolean (field test "scenario") then
    if is_function (field test "set") then FanOutLeaf
    else if is_array (field test "inherit") then InheritingLeaf
    else if is_function (field test "given") then ConditionalLeaf
    else DirectLeaf
  else Skipped.

(** ** The runner's view of a registered test *)

Inductive verdict : Type :=
| Passed
| Failed (reason : value)
| Unsettled.   (* the promise of the test never settles; the runner times out *)

(** How the runner judges a test function that takes no [done]: an
    exception fails the test, a returned promise decides it when it
    settles, another returned value passes it.  A returned thenable that
    is not a promise is subscribed to through its own [then], which is the
    host's: no verdict is modelled for it. *)
Definition verdict_of (o : outcome value) : option verdict :=
  match o with
  | Throw e => Some (Failed e)
  | Ret (VFulfilled _) => Some Passed
  | Ret (VRejected e) => Some (Failed e)
  | Ret VPending => Some Unsettled
  | Ret v => if is_thenable v then None else Some Passed
  end.

(** The function that was registered with [it]. *)
Definition registered_body (host : host_t) (r : reg) : option (M value) :=
  match r with
  | It _ test docFragment wndw => Some (test_body host test docFragment wndw)
  | _ => None
  end.

(** The groups of a scenario with a [set] that produced [l]: one group
    per position [k], titled by [k], holding the test on [l[k]] when
    [pass k] holds and nothing otherwise. *)
Definition fan_out_groups (scenario test wndw : value) (pass : nat -> bool)
    (l : list value) : list reg :=
  map (fun k =>
         Describe (set_index_title k)
           (if pass k then [It scenario test (nth k l VUndefined) wndw] else []))
      (seq 0 (List.length l)).

(** Whether the [k]-th call in a row of the function [g], made after the
    history [h1], returns a truthy value. *)
Definition guard_passes (host : host_t) (h1 : history) (g : fid) (this : value)
    (args : list value) (k : nat) : bool :=
  match host (h1 ++ repeat (Call g this args) k) g this args with
  | Ret r => to_boolean r
  | Throw _ => false
  end.

(** The verdict on the test registered for [test], when the runner runs
    it after the history [h]. *)
Definition run_test (host : host_t) (test docFragment wndw : value) (h : history)
    : option verdict :=
  verdict_of (snd (fst (test_body host test docFragment wndw h))).

(** The hooks that lines 72-75 and 84-87 register for a feature: [before]
    first, each only when the property is a function. *)
Definition hook_regs (test docFragment wndw : value) : list reg :=
  (if is_function (field test "before") then [Before test wndw] else []) ++
  (if is_function (field test "beforeEach")
   then [BeforeEach test docFragment wndw] else []).

(** ** Test objects and a host used as examples *)

Module Examples.

Definition fragment : value := VObj [("id", VNum 1)].

Definition panel : value := VObj [("id", VNum 2)].

Definition window : value := VObj [("document", fragment)].

Definition calls_of (f : fid) (h : history) : nat :=
  List.length (filter (fun c => Nat.eqb (callee c) f) h).

(** The user functions of the examples, by number. *)
Definition studio : host_t := fun h f this args =>
  match f with
  | 0 => Ret (nth 1 args VUndefined)
      (* function (test, docFragment) { return docFragment; } *)
  | 1 => Ret (VArr [VStr "a"; VStr "b"])
      (* a set of two fragments *)
  | 2 => Ret panel
      (* a getDomFragment that picks a panel *)
  | 3 => Ret (VBool (Nat.eqb (calls_of 3 h) 0))
      (* a given that holds the first time it is asked only *)
  | 4 => Ret (VFulfilled (VNum 1))
  | 5 => match args with
         | [VNum 1] => Ret VUndefined
         | _ => Throw (VStr "expected 1")
         end
      (* a comparison that accepts 1 *)
  | 6 => Ret (VRejected (VStr "no such element"))
  | 7 => Ret (VNum 1)
      (* a getActual that is not asynchronous *)
  | 8 => Throw (VStr "no fixture")
  | 9 => Ret VPending
  | 10 => Ret (VFulfilled (VNum 2))
  | 11 => Throw (VStr "cannot read")
  | _ => Ret VUndefined
  end.

(** A scenario with nothing but its name. *)
Definition plain (name : string) : value := VObj [("scenario", VStr name)].

(** A scenario that reads through [getActual] number [ga]. *)
Definition reading (ga : fid) : value :=
  VObj [("scenario", VStr "S"); ("getActual", VFun ga 2); ("comparison", VFun 5 1)].

Definition with_panel : value :=
  VObj [("scenario", VStr "S"); ("getDomFragment", VFun 2 1)].

Definition with_second_argument : value :=
  VObj [("scenario", VStr "S"); ("getDomFragment", VFun 0 2)].

Definition guarded_with_panel : value :=
  VObj [("scenario", VStr "S"); ("given", VFun 3 3); ("getDomFragment", VFun 2 1)].

Definition inheriting : value :=
  VObj [("scenario", VStr "T"); ("inherit", VArr [plain "child"]);
        ("getDomFragment", VFun 2 1)].

Definition fanned : value :=
  VObj [("scenario", VStr "S"); ("set", VFun 1 1); ("getDomFragment", VFun 2 1)].

Definition fanned_guarded : value :=
  VObj [("scenario", VStr "S"); ("set", VFun 1 1); ("given", VFun 3 3)].

Definition feature_F : value :=
  VObj [("feature", VStr "F"); ("tests", VArr [plain "S"])].

Definition broken_feature : value :=
  VObj [("feature", VStr "F"); ("set", VFun 8 1); ("tests", VArr [plain "inner"])].

(** More user functions, on top of those of [studio]. *)
Definition workshop : host_t := fun h f this args =>
  match f with
  | 20 => Ret (VArr [])
      (* a set that finds no fragment *)
  | 21 => Ret (VObj [("then", VFun 22 2)])
      (* a getActual that returns a thenable of its own *)
  | 22 => Ret (VStr "subscribed")
  | 23 => Ret (VBool false)
      (* a comparison that answers false, and a given that does not hold *)
  | _ => studio h f this args
  end.

Definition hooked_feature : value :=
  VObj [("feature", VStr "F"); ("before", VFun 30 2); ("beforeEach", VFun 31 3);
        ("tests", VArr [plain "S"])].

Definition fanned_feature : value :=
  VObj [("feature", VStr "F"); ("set", VFun 1 1); ("beforeEach", VFun 31 3);
        ("tests", VArr [plain "S"])].

Definition lost_feature (set : fid) : value :=
  VObj [("feature", VStr "F"); ("set", VFun set 1); ("before", VFun 30 2);
        ("tests", VArr [plain "S"])].

Definition lost_scenario (set : fid) : value :=
  VObj [("scenario", VStr "S"); ("set", VFun set 1); ("given", VFun 3 3)].

Definition unmet : value :=
  VObj [("scenario", VStr "S"); ("given", VFun 23 3); ("getDomFragment", VFun 2 1)].

Definition misspelt : value :=
  VObj [("feature", VStr "F"); ("test", VArr [plain "S"])].

Definition unchecked : value :=
  VObj [("scenario", VStr "S"); ("getActual", VFun 4 2)].

Definition answered : value :=
  VObj [("scenario", VStr "S"); ("getActual", VFun 4 2); ("comparison", VFun 23 1)].

Definition homemade : value :=
  VObj [("scenario", VStr "S"); ("getActual", VFun 21 2); ("comparison", VFun 5 1)].

End Examples.
(** ** The equations of the parser *)

Section Equations.

Variable host : host_t.

Lemma no_walk_testParser (v : value) :
  is_array v = false -> testParser host v = no_walk.
Proof.
  destruct v; simpl; intros Hv; try reflexivity; discriminate.
Qed.

Lemma sub_lookup (key : string) (fs : list (string * value)) :
  (fix sub (fs : list (string * value)) (key : string) : walker :=
     match fs with
     | [] => no_walk
     | (k, v) :: rest => if k =? key then testParser host v else sub rest key
     end) fs key = testParser host (lookup key fs).
Proof.
  induction fs as [|[k v] rest IH]; simpl.
  - reflexivity.
  - destruct (k =? key); [reflexivity | exact IH].
Qed.

(** The callback of line 67 calls [testParser] on [test.tests] and on
    [test.inherit]. *)
Lemma visit_eq (test : value) :
  visit host test =
  visit_with host (testParser host (field test "tests"))
                  (testParser host (field test "inherit")) test.
Proof.
  destruct test; try reflexivity.
  simpl. rewrite !sub_lookup. reflexivity.
Qed.

(** Lines 60-116. *)
Lemma testParser_eq (tests docFragment wndw index : value) :
  testParser host tests docFragment wndw index =
  (p <- lift (unwrap docFragment wndw) ;;
   match tests with
   | VArr l => forEach (fun test => visit host test (fst p) (snd p) index) l
   | _ => ret tt
   end).
Proof.
  destruct tests; reflexivity.
Qed.

End Equations.


(** ** Running the loops *)

Section Loops.

Lemma bind_run {A B} (m : M A) (f : A -> M B) (h : history) r a h1 :
  m h = (r, Ret a, h1) ->
  bind m f h = (let '(r2, o, h2) := f a h1 in (r ++ r2, o, h2)).
Proof.
  intros Hm. unfold bind. rewrite Hm. reflexivity.
Qed.

Lemma bind_throw {A B} (m : M A) (f : A -> M B) (h : history) r e h1 :
  m h = (r, Throw e, h1) -> bind m f h = (r, Throw e, h1).
Proof.
  intros Hm. unfold bind. rewrite Hm. reflexivity.
Qed.

(** The elements before the one that throws are visited, the ones after
    it are not. *)
Lemma forEach_app (f : value -> M unit) (l1 l2 : list value) :
  forall h r1 h1,
    forEach f l1 h = (r1, Ret tt, h1) ->
    forEach f (l1 ++ l2) h =
    (let '(r2, o, h2) := forEach f l2 h1 in (r1 ++ r2, o, h2)).
Proof.
  induction l1 as [|x l1 IH]; intros h r1 h1 Hrun.
  - cbn in Hrun. inversion Hrun; subst.
    cbn. destruct (forEach f l2 h1) as [[r2 o] h2]. reflexivity.
  - cbn in Hrun |- *. unfold bind in Hrun |- *.
    destruct (f x h) as [[rx ox] hx].
    destruct ox as [[]|e]; [|discriminate].
    destruct (forEach f l1 hx) as [[rl ol] hl] eqn:Hl.
    inversion Hrun; subst.
    rewrite (IH _ _ _ Hl).
    destruct (forEach f l2 h1) as [[r2 o] h2].
    now rewrite app_assoc.
Qed.

Lemma forEach_throws_at (f : value -> M unit) (l1 l2 : list value) (x : value) :
  forall h r1 h1 rx e hx,
    forEach f l1 h = (r1, Ret tt, h1) ->
    f x h1 = (rx, Throw e, hx) ->
    forEach f (l1 ++ x :: l2) h = (r1 ++ rx, Throw e, hx).
Proof.
  intros h r1 h1 rx e hx H1 Hx.
  rewrite (forEach_app f l1 (x :: l2) h r1 h1 H1).
  cbn. unfold bind. rewrite Hx. reflexivity.
Qed.

(** A counted loop whose rounds all complete: round [j] starts from the
    history [hs j] and registers [rs j]. *)
Lemma for_from_run (body : nat -> M unit) (rs : nat -> list reg) (hs : nat -> history) :
  forall n i,
    (forall j, i <= j < i + n -> body j (hs j) = (rs j, Ret tt, hs (S j))) ->
    for_from n i body (hs i) = (List.concat (map rs (seq i n)), Ret tt, hs (i + n)).
Proof.
  induction n as [|n IH]; intros i Hbody.
  - cbn. now rewrite Nat.add_0_r.
  - cbn. unfold bind. rewrite (Hbody i) by lia.
    rewrite (IH (S i)) by (intros j Hj; apply Hbody; lia).
    now rewrite Nat.add_succ_r.
Qed.

End Loops.

(** ** The walker at its boundary *)

Arguments field : simpl never.
Arguments set_index_title : simpl never.
Arguments fan_out_groups : simpl never.


Section Reading.

Lemma get_prop_field (v : value) (key : string) :
  is_nullish v = false -> get_prop v key = Ret (field v key).
Proof.
  unfold field. destruct v; simpl; intros Hv; try discriminate; reflexivity.
Qed.

Lemma nullish_get_prop (v : value) (key : string) :
  is_nullish v = true -> get_prop v key = Throw VTypeError.
Proof.
  destruct v; simpl; intros Hv; try discriminate; reflexivity.
Qed.

Lemma get_prop_total (v : value) (key : string) :
  is_nullish v = false -> exists x, get_prop v key = Ret x.
Proof.
  destruct v; simpl; intros Hv; try discriminate; eauto.
Qed.

Lemma truthy_not_nullish (v : value) :
  to_boolean v = true -> is_nullish v = false.
Proof.
  destruct v; simpl; intros Hv; try discriminate; reflexivity.
Qed.

Lemma unwrap_nullish (d w : value) :
  is_nullish d = true -> unwrap d w = Throw VTypeError.
Proof.
  intros Hd. unfold unwrap. now rewrite nullish_get_prop.
Qed.

Lemma unwrap_total (d w : value) :
  is_nullish d = false -> exists p, unwrap d w = Ret p.
Proof.
  intros Hd. unfold unwrap.
  destruct (get_prop_total d "document" Hd) as [x ->].
  destruct (to_boolean x && is_undefined w); eauto.
Qed.

Lemma unwrap_with_window (d w : value) :
  is_nullish d = false -> is_undefined w = false -> unwrap d w = Ret (d, w).
Proof.
  intros Hd Hw. unfold unwrap.
  destruct (get_prop_total d "document" Hd) as [x ->].
  now rewrite Hw, andb_false_r.
Qed.

End Reading.

Ltac use_props :=
  repeat match goal with
         | H : get_prop _ _ = _ |- _ => rewrite H
         | H : to_boolean _ = _ |- _ => rewrite H
         | H : is_function _ = _ |- _ => rewrite H
         | H : is_array _ = _ |- _ => rewrite H
         | H : unwrap _ _ = _ |- _ => rewrite H
         end.

Ltac read_fields :=
  repeat match goal with
         | Hn : is_nullish ?t = false |- context [get_prop ?t ?k] =>
             rewrite (get_prop_field t k Hn)
         end.

Ltac run :=
  repeat (unfold bind, prop, lift, invoke, call, call_host, throw, ret,
                 describe, emit, when, itter, index_of;
          read_fields; use_props; cbn).


(** From [classify test = k] to the tests of lines 68-114 that decide it. *)
Ltac classified H :=
  unfold classify in H;
  repeat match type of H with
         | context [if ?b then _ else _] => destruct b eqn:?
         end;
  try discriminate H; clear H.

Section Boundary.

Variable host : host_t.

Lemma visit_nullish (e d w i : value) (h : history) :
  is_nullish e = true -> visit host e d w i h = ([], Throw VTypeError, h).
Proof.
  intros He. rewrite visit_eq. unfold visit_with.
  pose proof (nullish_get_prop e "feature" He). now run.
Qed.

Lemma visit_skipped (e d w i : value) (h : history) :
  classify e = Skipped -> visit host e d w i h = ([], Ret tt, h).
Proof.
  intros Hk. classified Hk. rewrite visit_eq. unfold visit_with. now run.
Qed.

(** A [set] that throws: nothing is registered for the test object. *)
Lemma visit_set_throws (node d w i : value) (h : history) s a e :
  classify node = FanOutGroup \/ classify node = FanOutLeaf ->
  field node "set" = VFun s a ->
  host h s node [d] = Throw e ->
  visit host node d w i h = ([], Throw e, h ++ [Call s node [d]]).
Proof.
  intros [Hk|Hk] Hset Hthrow; classified Hk; rewrite visit_eq; unfold visit_with;
    run; rewrite Hset; run; now rewrite Hthrow.
Qed.

End Boundary.

(** ** One test object at a time *)

Ltac enter_visit :=
  rewrite visit_eq; unfold visit_with.

Section Leaves.

Variable host : host_t.

Lemma concat_singletons {A B} (f : A -> B) (l : list A) :
  List.concat (map (fun x => [f x]) l) = map f l.
Proof.
  induction l as [|x l IH]; simpl; [reflexivity | now rewrite IH].
Qed.

Lemma function_truthy (v : value) : is_function v = true -> to_boolean v = true.
Proof.
  destruct v; simpl; intros Hv; try discriminate; reflexivity.
Qed.

Lemma leaf_truthy (test : value) :
  to_boolean (field test "scenario") = true -> to_boolean test = true.
Proof.
  unfold field. destruct test; simpl; intros Hv; try discriminate; try reflexivity.
Qed.

(** [getDomFragment], lines 34-38. *)
Lemma getDomFragment_default (test d : value) (h : history) :
  is_function (field test "getDomFragment") = false ->
  getDomFragment host test d h = ([], Ret d, h).
Proof.
  intros Hg. unfold getDomFragment.
  destruct (to_boolean test) eqn:Ht; [|reflexivity].
  pose proof (truthy_not_nullish _ Ht) as Hn.
  run. now rewrite andb_false_r.
Qed.

Lemma getDomFragment_custom (test d : value) (h : history) g a :
  field test "getDomFragment" = VFun g a ->
  getDomFragment host test d h = ([], host h g test [d], h ++ [Call g test [d]]).
Proof.
  intros Hg. unfold getDomFragment.
  assert (Hn : is_nullish test = false).
  { unfold field in Hg. destruct test; simpl in *; try discriminate; reflexivity. }
  assert (Ht : to_boolean test = true).
  { unfold field in Hg. destruct test; simpl in *; try discriminate; reflexivity. }
  rewrite Ht. run. rewrite Hg. run. destruct (host h g test [d]); reflexivity.
Qed.

(** The loop of lines 94-103, when every call of [given] returns: round
    [k] starts from the history [hs k], and [pass k] tells whether the
    test is registered. *)
Lemma fan_leaf_run (test d w i : value) (h : history) s a (l : list value)
    (pass : nat -> bool) (hs : nat -> history) :
  classify test = FanOutLeaf ->
  field test "set" = VFun s a ->
  host h s test [d] = Ret (VArr l) ->
  hs 0 = h ++ [Call s test [d]] ->
  (forall k, k < List.length l ->
     (is_function (field test "given") = false /\ pass k = true /\ hs (S k) = hs k) \/
     (exists g ga r,
        field test "given" = VFun g ga /\
        host (hs k) g test [d; w; i] = Ret r /\
        pass k = to_boolean r /\
        hs (S k) = hs k ++ [Call g test [d; w; i]])) ->
  visit host test d w i h =
  (fan_out_groups (field test "scenario") test w pass l, Ret tt, hs (List.length l)).
Proof.
  intros Hk Hset Hrun H0 Hrounds. classified Hk.
  enter_visit. run. rewrite Hset. run. rewrite Hrun. run.
  unfold loop_count. cbn. rewrite Nat2Z.id. rewrite <- H0.
  unfold for_loop.
  rewrite (for_from_run _
             (fun k => [Describe (set_index_title k)
                          (if pass k
                           then [It (field test "scenario") test (nth k l VUndefined) w]
                           else [])]) hs (List.length l) 0).
  - unfold fan_out_groups. now rewrite concat_singletons.
  - intros k [_ Hlt]. simpl in Hlt.
    destruct (Hrounds k Hlt) as [(Hg & Hp & Hh) | (g & ga & r & Hg & Hr & Hp & Hh)].
    + run. rewrite Hp, Hh. reflexivity.
    + run. rewrite ?Hg. run. rewrite ?Hg. run. rewrite Hr. run.
      rewrite Hp, Hh. destruct (to_boolean r); reflexivity.
Qed.

Lemma fan_leaf_unguarded (test d w i : value) (h : history) s a (l : list value) :
  classify test = FanOutLeaf ->
  field test "set" = VFun s a ->
  host h s test [d] = Ret (VArr l) ->
  is_function (field test "given") = false ->
  visit host test d w i h =
  (fan_out_groups (field test "scenario") test w (fun _ => true) l, Ret tt,
   h ++ [Call s test [d]]).
Proof.
  intros Hk Hset Hrun Hg.
  apply (fan_leaf_run test d w i h s a l (fun _ => true)
           (fun _ => h ++ [Call s test [d]])); auto.
Qed.

Lemma fan_leaf_guarded (test d w i : value) (h : history) s a (l : list value) g ga :
  classify test = FanOutLeaf ->
  field test "set" = VFun s a ->
  host h s test [d] = Ret (VArr l) ->
  field test "given" = VFun g ga ->
  (forall k, k < List.length l ->
     exists r, host ((h ++ [Call s test [d]]) ++ repeat (Call g test [d; w; i]) k)
                    g test [d; w; i] = Ret r) ->
  visit host test d w i h =
  (fan_out_groups (field test "scenario") test w
     (guard_passes host (h ++ [Call s test [d]]) g test [d; w; i]) l,
   Ret tt,
   (h ++ [Call s test [d]]) ++ repeat (Call g test [d; w; i]) (List.length l)).
Proof.
  intros Hk Hset Hrun Hg Hret.
  apply (fan_leaf_run test d w i h s a l
           (guard_passes host (h ++ [Call s test [d]]) g test [d; w; i])
           (fun k => (h ++ [Call s test [d]]) ++ repeat (Call g test [d; w; i]) k));
    auto.
  - cbn. now rewrite app_nil_r.
  - intros k Hlt. right. destruct (Hret k Hlt) as [r Hr].
    exists g, ga, r. repeat split; auto.
    + unfold guard_passes. now rewrite Hr.
    + cbn [repeat]. rewrite repeat_cons. apply app_assoc.
Qed.

Lemma fan_out_groups_length sc test w pass (l : list value) :
  List.length (fan_out_groups sc test w pass l) = List.length l.
Proof.
  unfold fan_out_groups. now rewrite length_map, length_seq.
Qed.

Lemma fan_out_groups_nth sc test w pass (l : list value) (k : nat) :
  k < List.length l ->
  nth_error (fan_out_groups sc test w pass l) k =
  Some (Describe (set_index_title k)
          (if pass k then [It sc test (nth k l VUndefined) w] else [])).
Proof.
  intros Hk. unfold fan_out_groups.
  rewrite nth_error_map.
  rewrite (nth_error_nth' _ 0) by now rewrite length_seq.
  now rewrite seq_nth.
Qed.

(** Lines 104-107. *)
Lemma inheriting_leaf_run (test d w i : value) (h : history) d' h1 rs o h2 :
  classify test = InheritingLeaf ->
  getDomFragment host test d h = ([], Ret d', h1) ->
  testParser host (field test "inherit") d' w VUndefined h1 = (rs, o, h2) ->
  visit host test d w i h = ([Describe (field test "scenario") rs], o, h2).
Proof.
  intros Hk Hd Hrec. classified Hk. enter_visit. run.
  rewrite Hd. run. rewrite Hrec. reflexivity.
Qed.

(** Lines 108-110. *)
Lemma conditional_leaf_run (test d w i : value) (h : history) g ga r :
  classify test = ConditionalLeaf ->
  field test "given" = VFun g ga ->
  host h g test [d; w; i] = Ret r ->
  (to_boolean r = false ->
   visit host test d w i h = ([], Ret tt, h ++ [Call g test [d; w; i]])) /\
  (forall d' h1,
     to_boolean r = true ->
     getDomFragment host test d (h ++ [Call g test [d; w; i]]) = ([], Ret d', h1) ->
     visit host test d w i h = ([It (field test "scenario") test d' w], Ret tt, h1)).
Proof.
  intros Hk Hg Hr. classified Hk. split.
  - intros Hfalse. enter_visit. run. rewrite Hg. run. rewrite Hr. run. reflexivity.
  - intros d' h1 Htrue Hd. enter_visit. run. rewrite Hg. run. rewrite Hr. run.
    rewrite Hd. run. reflexivity.
Qed.

(** Lines 111-113. *)
Lemma direct_leaf_run (test d w i : value) (h : history) d' h1 :
  classify test = DirectLeaf ->
  getDomFragment host test d h = ([], Ret d', h1) ->
  visit host test d w i h = ([It (field test "scenario") test d' w], Ret tt, h1).
Proof.
  intros Hk Hd. classified Hk. enter_visit. run. rewrite Hd. run. reflexivity.
Qed.

End Leaves.

(** ** The registered test *)

Section Body.

Variable host : host_t.

Lemma field_function_readable (test : value) (key : string) f a :
  field test key = VFun f a -> is_nullish test = false.
Proof.
  unfold field. destruct test; simpl; intros Hf; try discriminate; reflexivity.
Qed.

(** Line 48 up to the call of [then]. *)
Lemma test_body_actual (test d w : value) (h : history) ga a r :
  field test "getActual" = VFun ga a ->
  host h ga test [d; w] = Ret r ->
  test_body host test d w h =
  (let '(r2, o, h2) :=
     invoke host r "then" [field test "comparison"] (h ++ [Call ga test [d; w]])
   in ([] ++ r2, o, h2)).
Proof.
  intros Hga Hr. pose proof (field_function_readable _ _ _ _ Hga) as Hn.
  unfold test_body.
  rewrite (bind_run _ _ h [] r (h ++ [Call ga test [d; w]])).
  - unfold bind at 1, prop, lift. rewrite (get_prop_field test _ Hn).
    destruct (invoke host r "then" _ _) as [[r2 o] h2]. reflexivity.
  - run. rewrite Hga. run. now rewrite Hr.
Qed.

Lemma then_of_non_thenable (r : value) (args : list value) (h : history) :
  is_thenable r = false ->
  invoke host r "then" args h = ([], Throw VTypeError, h).
Proof.
  unfold is_thenable. intros Hr. apply orb_false_iff in Hr as [Hp Hf].
  unfold invoke. rewrite Hp. cbn. unfold bind, prop, lift.
  destruct (get_prop r "then") as [f|e] eqn:Hget.
  - destruct f; try discriminate; reflexivity.
  - destruct r; simpl in Hget; try discriminate; now inversion Hget.
Qed.

Lemma resolved_is_promise (x : value) : is_promise (resolved x) = true.
Proof.
  unfold resolved. destruct (is_promise x) eqn:Hp; [exact Hp|].
  destruct (is_thenable x); reflexivity.
Qed.

Lemma resolved_plain (x : value) :
  is_thenable x = false -> resolved x = VFulfilled x.
Proof.
  intros Hth. unfold resolved. rewrite Hth.
  unfold is_thenable in Hth. apply orb_false_iff in Hth as [-> _]. reflexivity.
Qed.

End Body.

(** ** The properties of the specification *)

Section Claims.

Variable host : host_t.

Lemma testParser_array (l : list value) (d w i : value) (h : history) :
  testParser host (VArr l) d w i h =
  match unwrap d w with
  | Ret p => forEach (fun t => visit host t (fst p) (snd p) i) l h
  | Throw e => ([], Throw e, h)
  end.
Proof.
  rewrite testParser_eq. unfold bind, lift.
  destruct (unwrap d w) as [p|e]; [|reflexivity].
  destruct (forEach _ l h) as [[r o] h']. reflexivity.
Qed.

Lemma testParser_throws_at (pre post : list value) (x d0 w0 i d w : value)
    (h : history) r1 h1 rx e hx :
  unwrap d0 w0 = Ret (d, w) ->
  testParser host (VArr pre) d0 w0 i h = (r1, Ret tt, h1) ->
  visit host x d w i h1 = (rx, Throw e, hx) ->
  testParser host (VArr (pre ++ x :: post)) d0 w0 i h = (r1 ++ rx, Throw e, hx).
Proof.
  intros Hu Hpre Hx. rewrite testParser_array, Hu in *. cbn [fst snd] in *.
  now apply forEach_throws_at with (h1 := h1).
Qed.

(** C7, as amended: when [tests] is not an array and [docFragment] is
    neither [null] nor [undefined], [testParser] registers nothing, calls
    nothing and throws nothing. *)
Theorem C7_non_array_is_noop (tests d w i : value) (h : history) :
  is_array tests = false ->
  is_nullish d = false ->
  testParser host tests d w i h = ([], Ret tt, h).
Proof.
  intros Ht Hd. rewrite testParser_eq. unfold bind, lift.
  destruct (unwrap_total d w Hd) as [p ->].
  destruct tests; try reflexivity; discriminate.
Qed.

(** C9: [testParser] throws a TypeError when [docFragment] is [null] or
    [undefined], whatever [tests] is, and when an element of [tests] is
    [null] or [undefined], once the elements before it are done; an
    element that can be read and has neither a truthy [feature] nor a
    truthy [scenario] is skipped. *)
Theorem C9_walk_not_total :
  (forall tests d w i h,
      is_nullish d = true ->
      testParser host tests d w i h = ([], Throw VTypeError, h)) /\
  (forall pre e post d w i h r h1,
      is_nullish e = true ->
      testParser host (VArr pre) d w i h = (r, Ret tt, h1) ->
      testParser host (VArr (pre ++ e :: post)) d w i h = (r, Throw VTypeError, h1)) /\
  (forall e d w i h,
      classify e = Skipped -> visit host e d w i h = ([], Ret tt, h)).
Proof.
  split; [|split].
  - intros tests d w i h Hd. rewrite testParser_eq. unfold bind, lift.
    now rewrite (unwrap_nullish d w Hd).
  - intros pre e post d w i h r h1 He Hpre.
    destruct (unwrap d w) as [[d' w']|e0] eqn:Hu.
    + rewrite (testParser_throws_at pre post e d w i d' w' h r h1 [] VTypeError h1 Hu Hpre).
      * now rewrite app_nil_r.
      * now apply visit_nullish.
    + rewrite testParser_array, Hu in Hpre. discriminate.
  - intros e d w i h Hk. now apply visit_skipped.
Qed.

(** C5: a window given as [docFragment] with no [wndw] is parsed as its
    document with that window, and no unwrapping takes place when a
    [wndw] is given. *)
Theorem C5_root_unwrap (nodes s D i : value) (h : history) :
  get_prop s "document" = Ret D ->
  to_boolean D = true ->
  testParser host nodes s VUndefined i h = testParser host nodes D s i h /\
  (forall d w, is_nullish d = false -> is_undefined w = false ->
               unwrap d w = Ret (d, w)).
Proof.
  intros Hs HD. split.
  - rewrite !testParser_eq. unfold bind, lift.
    assert (Hl : unwrap s VUndefined = Ret (D, s)).
    { unfold unwrap. rewrite Hs, HD. reflexivity. }
    assert (Hr : unwrap D s = Ret (D, s)).
    { apply unwrap_with_window.
      - now apply truthy_not_nullish.
      - destruct s; simpl in *; try discriminate; reflexivity. }
    now rewrite Hl, Hr.
  - intros d w. apply unwrap_with_window.
Qed.

(** C8: when the [set] of a feature or of a scenario throws, [testParser]
    throws the same exception; the registrations are those of the elements
    before it, with no group for the feature, and no later element is
    visited. *)
Theorem C8_set_failure_propagates (pre post : list value) (node d0 w0 i d w : value)
    (h : history) r1 h1 s a e :
  unwrap d0 w0 = Ret (d, w) ->
  testParser host (VArr pre) d0 w0 i h = (r1, Ret tt, h1) ->
  classify node = FanOutGroup \/ classify node = FanOutLeaf ->
  field node "set" = VFun s a ->
  host h1 s node [d] = Throw e ->
  testParser host (VArr (pre ++ node :: post)) d0 w0 i h =
  (r1, Throw e, h1 ++ [Call s node [d]]).
Proof.
  intros Hu Hpre Hkind Hset Hthrow.
  rewrite (testParser_throws_at pre post node d0 w0 i d w h r1 h1 []
             e (h1 ++ [Call s node [d]]) Hu Hpre).
  - now rewrite app_nil_r.
  - now apply visit_set_throws with (a := a).
Qed.

(** C1, as amended: [getDomFragment] returns [docFragment] when the test
    object has no function [getDomFragment], and otherwise what
    [test.getDomFragment(docFragment)] returns: the function is called on
    the test object with the fragment as its only argument.  That result
    is the fragment of the registered test for a direct scenario and for
    a conditional one whose [given] is truthy, and the fragment [inherit]
    is parsed with.  A scenario with a [set] registers its tests on the
    generated fragments as they are and does not call [getDomFragment]. *)
Theorem C1_fragment_resolution (test d w i : value) (h : history) :
  (is_function (field test "getDomFragment") = false ->
   getDomFragment host test d h = ([], Ret d, h)) /\
  (forall g a,
     field test "getDomFragment" = VFun g a ->
     getDomFragment host test d h = ([], host h g test [d], h ++ [Call g test [d]]) /\
     (forall d',
        classify test = DirectLeaf ->
        host h g test [d] = Ret d' ->
        visit host test d w i h =
        ([It (field test "scenario") test d' w], Ret tt, h ++ [Call g test [d]])) /\
     (forall gv ga r d',
        classify test = ConditionalLeaf ->
        field test "given" = VFun gv ga ->
        host h gv test [d; w; i] = Ret r ->
        to_boolean r = true ->
        host (h ++ [Call gv test [d; w; i]]) g test [d] = Ret d' ->
        visit host test d w i h =
        ([It (field test "scenario") test d' w], Ret tt,
         (h ++ [Call gv test [d; w; i]]) ++ [Call g test [d]])) /\
     (forall d' rs o h2,
        classify test = InheritingLeaf ->
        host h g test [d] = Ret d' ->
        testParser host (field test "inherit") d' w VUndefined
          (h ++ [Call g test [d]]) = (rs, o, h2) ->
        visit host test d w i h = ([Describe (field test "scenario") rs], o, h2))) /\
  (forall s a l,
     classify test = FanOutLeaf ->
     field test "set" = VFun s a ->
     host h s test [d] = Ret (VArr l) ->
     (is_function (field test "given") = false ->
      visit host test d w i h =
      (fan_out_groups (field test "scenario") test w (fun _ => true) l, Ret tt,
       h ++ [Call s test [d]])) /\
     (forall gv ga,
        field test "given" = VFun gv ga ->
        (forall k, k < List.length l ->
           exists r, host ((h ++ [Call s test [d]]) ++ repeat (Call gv test [d; w; i]) k)
                          gv test [d; w; i] = Ret r) ->
        visit host test d w i h =
        (fan_out_groups (field test "scenario") test w
           (guard_passes host (h ++ [Call s test [d]]) gv test [d; w; i]) l,
         Ret tt,
         (h ++ [Call s test [d]]) ++ repeat (Call gv test [d; w; i]) (List.length l)))).
Proof.
  split; [|split].
  - apply getDomFragment_default.
  - intros g a Hg. split; [|split; [|split]].
    + now apply getDomFragment_custom with (a := a).
    + intros d' Hk Hd. apply direct_leaf_run; auto.
      rewrite (getDomFragment_custom host test d h g a Hg). now rewrite Hd.
    + intros gv ga r d' Hk Hgv Hr Ht Hd.
      destruct (conditional_leaf_run host test d w i h gv ga r Hk Hgv Hr) as [_ Hyes].
      apply Hyes; auto.
      rewrite (getDomFragment_custom host test d _ g a Hg). now rewrite Hd.
    + intros d' rs o h2 Hk Hd Hrec.
      apply inheriting_leaf_run with (d' := d') (h1 := h ++ [Call g test [d]]); auto.
      rewrite (getDomFragment_custom host test d h g a Hg). now rewrite Hd.
  - intros s a l Hk Hset Hrun. split.
    + intros Hg. now apply fan_leaf_unguarded with (a := a).
    + intros gv ga Hg Hret. now apply fan_leaf_guarded with (a := a) (ga := ga).
Qed.

(** C2: a scenario whose [set] returns an array of length [n] registers
    exactly [n] groups, the [k]-th titled [Set index: ] followed by [k] in
    decimal, whatever the calls of [given] return. *)
Theorem C2_fan_out_leaf_groups (test d w i : value) (h : history) s a (l : list value) :
  classify test = FanOutLeaf ->
  field test "set" = VFun s a ->
  host h s test [d] = Ret (VArr l) ->
  (forall g ga h', field test "given" = VFun g ga ->
                   exists r, host h' g test [d; w; i] = Ret r) ->
  exists regs h',
    visit host test d w i h = (regs, Ret tt, h') /\
    List.length regs = List.length l /\
    forall k, k < List.length l ->
      exists body,
        nth_error regs k =
          Some (Describe
                  (VStr ("Set index: " ++ NilZero.string_of_uint (Nat.to_uint k)))
                  body) /\
        (body = [] \/
         body = [It (field test "scenario") test (nth k l VUndefined) w]).
Proof.
  intros Hk Hset Hrun Hgiven.
  destruct (is_function (field test "given")) eqn:Hf.
  - destruct (field test "given") as [| | | | |g ga| | | | | | |] eqn:Hg;
      try discriminate.
    exists (fan_out_groups (field test "scenario") test w
              (guard_passes host (h ++ [Call s test [d]]) g test [d; w; i]) l),
           ((h ++ [Call s test [d]]) ++ repeat (Call g test [d; w; i]) (List.length l)).
    split; [|split].
    + apply fan_leaf_guarded with (a := a) (ga := ga); auto.
      intros k _. now apply Hgiven with (ga := ga).
    + apply fan_out_groups_length.
    + intros k Hlt. eexists. split; [now apply fan_out_groups_nth|].
      destruct (guard_passes _ _ _ _ _ k); auto.
  - exists (fan_out_groups (field test "scenario") test w (fun _ => true) l),
           (h ++ [Call s test [d]]).
    split; [|split].
    + apply fan_leaf_unguarded with (a := a); auto.
    + apply fan_out_groups_length.
    + intros k Hlt. eexists. split; [now apply fan_out_groups_nth|]. auto.
Qed.

(** C3: in a scenario with a [set], every call of [given] is
    [test.given(docFragment, wndw, index)] with the fragment, the window
    and the index of the enclosing call; the group at position [k] holds
    the test on the [k]-th generated fragment exactly when that call
    returned a truthy value, and always when [given] is not a function. *)
Theorem C3_fan_out_leaf_guard (test d w i : value) (h : history) s a (l : list value) :
  classify test = FanOutLeaf ->
  field test "set" = VFun s a ->
  host h s test [d] = Ret (VArr l) ->
  (forall g ga,
     field test "given" = VFun g ga ->
     (forall k, k < List.length l ->
        exists r, host ((h ++ [Call s test [d]]) ++ repeat (Call g test [d; w; i]) k)
                       g test [d; w; i] = Ret r) ->
     visit host test d w i h =
     (fan_out_groups (field test "scenario") test w
        (guard_passes host (h ++ [Call s test [d]]) g test [d; w; i]) l,
      Ret tt,
      (h ++ [Call s test [d]]) ++ repeat (Call g test [d; w; i]) (List.length l))) /\
  (is_function (field test "given") = false ->
   visit host test d w i h =
   (fan_out_groups (field test "scenario") test w (fun _ => true) l, Ret tt,
    h ++ [Call s test [d]])).
Proof.
  intros Hk Hset Hrun. split.
  - intros g ga Hg Hret. now apply fan_leaf_guarded with (a := a) (ga := ga).
  - intros Hg. now apply fan_leaf_unguarded with (a := a).
Qed.

(** C4: [itter] registers one test, titled by the scenario.  The body of
    that test calls [test.getActual(docFragment, wndw)]; when the promise
    it returns is fulfilled, the next call is [comparison], on the value
    of the promise, and the body returns a promise: the promise that
    [comparison] returned, or one fulfilled with what it returned when
    that has no [then] to call; a throw of [comparison] fails the test;
    when the promise of [getActual] is rejected, [comparison] is not
    called and the test fails with the reason; while it is pending,
    [comparison] is not called. *)
Theorem C4_leaf_executor (test d w : value) (h : history) ga a :
  field test "getActual" = VFun ga a ->
  itter test d w h = ([It (field test "scenario") test d w], Ret tt, h) /\
  registered_body host (It (field test "scenario") test d w) =
    Some (test_body host test d w) /\
  (forall v c ca,
     host h ga test [d; w] = Ret (VFulfilled v) ->
     field test "comparison" = VFun c ca ->
     (forall x,
        host (h ++ [Call ga test [d; w]]) c VUndefined [v] = Ret x ->
        (exists p later,
           test_body host test d w h =
           ([], Ret p,
            ((h ++ [Call ga test [d; w]]) ++ [Call c VUndefined [v]]) ++ later) /\
           is_promise p = true) /\
        (is_promise x = true ->
         test_body host test d w h =
         ([], Ret x, (h ++ [Call ga test [d; w]]) ++ [Call c VUndefined [v]])) /\
        (is_thenable x = false ->
         test_body host test d w h =
         ([], Ret (VFulfilled x),
          (h ++ [Call ga test [d; w]]) ++ [Call c VUndefined [v]]))) /\
     (forall e,
        host (h ++ [Call ga test [d; w]]) c VUndefined [v] = Throw e ->
        test_body host test d w h =
        ([], Ret (VRejected e), (h ++ [Call ga test [d; w]]) ++ [Call c VUndefined [v]]) /\
        run_test host test d w h = Some (Failed e))) /\
  (forall e,
     host h ga test [d; w] = Ret (VRejected e) ->
     test_body host test d w h = ([], Ret (VRejected e), h ++ [Call ga test [d; w]]) /\
     run_test host test d w h = Some (Failed e)) /\
  (host h ga test [d; w] = Ret VPending ->
   test_body host test d w h = ([], Ret VPending, h ++ [Call ga test [d; w]]) /\
   run_test host test d w h = Some Unsettled) /\
  (forall e,
     host h ga test [d; w] = Throw e ->
     test_body host test d w h = ([], Throw e, h ++ [Call ga test [d; w]]) /\
     run_test host test d w h = Some (Failed e)).
Proof.
  intros Hga. pose proof (field_function_readable _ _ _ _ Hga) as Hn.
  split; [|split; [|split; [|split; [|split]]]].
  - run. reflexivity.
  - reflexivity.
  - intros v c ca Hv Hc. split.
    + intros x Hx.
      assert (Hbody : test_body host test d w h =
                      ([], Ret (resolved x),
                       (h ++ [Call ga test [d; w]]) ++ [Call c VUndefined [v]])).
      { rewrite (test_body_actual host test d w h ga a _ Hga Hv), Hc.
        unfold invoke, promise_then, react, attempt. run. now rewrite Hx. }
      split; [|split].
      * exists (resolved x), []. rewrite app_nil_r. split; [exact Hbody|].
        apply resolved_is_promise.
      * intros Hp. rewrite Hbody. unfold resolved. now rewrite Hp.
      * intros Hth. rewrite Hbody. now rewrite (resolved_plain x Hth).
    + intros e He.
      assert (Hbody : test_body host test d w h =
                      ([], Ret (VRejected e),
                       (h ++ [Call ga test [d; w]]) ++ [Call c VUndefined [v]])).
      { rewrite (test_body_actual host test d w h ga a _ Hga Hv), Hc.
        unfold invoke, promise_then, react, attempt. run. now rewrite He. }
      split; [exact Hbody|]. unfold run_test. now rewrite Hbody.
  - intros e He.
    assert (Hbody : test_body host test d w h =
                    ([], Ret (VRejected e), h ++ [Call ga test [d; w]])).
    { rewrite (test_body_actual host test d w h ga a _ Hga He).
      unfold invoke, promise_then, react. run. reflexivity. }
    split; [exact Hbody|]. unfold run_test. now rewrite Hbody.
  - intros Hp.
    assert (Hbody : test_body host test d w h =
                    ([], Ret VPending, h ++ [Call ga test [d; w]])).
    { now rewrite (test_body_actual host test d w h ga a _ Hga Hp). }
    split; [exact Hbody|]. unfold run_test. now rewrite Hbody.
  - intros e He.
    assert (Hbody : test_body host test d w h =
                    ([], Throw e, h ++ [Call ga test [d; w]])).
    { unfold test_body. apply bind_throw. run. rewrite Hga. run. now rewrite He. }
    split; [exact Hbody|]. unfold run_test. now rewrite Hbody.
Qed.

(** C6: a scenario without a [set] function and with an array [inherit]
    registers one group, titled by the scenario, whose content is what
    [testParser] registers for [inherit] with the fragment that
    [getDomFragment] returns, the same window and no index. *)
Theorem C6_inheriting_leaf (test d w i : value) (h : history) d' h1 rs o h2 :
  classify test = InheritingLeaf ->
  getDomFragment host test d h = ([], Ret d', h1) ->
  testParser host (field test "inherit") d' w VUndefined h1 = (rs, o, h2) ->
  visit host test d w i h = ([Describe (field test "scenario") rs], o, h2).
Proof.
  intros Hk Hd Hrec. now apply inheriting_leaf_run with (d' := d') (h1 := h1).
Qed.

(** C10: when [getActual] returns a value that has no [then] to call, the
    body of the test throws a TypeError without calling [comparison], and
    the test fails. *)
Theorem C10_actual_must_be_thenable (test d w : value) (h : history) ga a r :
  field test "getActual" = VFun ga a ->
  host h ga test [d; w] = Ret r ->
  is_thenable r = false ->
  test_body host test d w h = ([], Throw VTypeError, h ++ [Call ga test [d; w]]) /\
  run_test host test d w h = Some (Failed VTypeError).
Proof.
  intros Hga Hr Hthen.
  assert (Hbody : test_body host test d w h =
                  ([], Throw VTypeError, h ++ [Call ga test [d; w]])).
  { rewrite (test_body_actual host test d w h ga a r Hga Hr).
    now rewrite then_of_non_thenable. }
  split; [exact Hbody|]. unfold run_test. now rewrite Hbody.
Qed.

End Claims.

(** ** The properties on the examples *)

Import Examples.

(** C1 does not hold as the specification states it.  A [getDomFragment] written for the two
    arguments (test, fragment) receives the fragment alone and returns
    [undefined], which is what the test is registered on; and a scenario
    with a [set] is registered on the generated fragments, not on what
    [getDomFragment] makes of them. *)
Lemma C1_counterexample :
  (testParser studio (VArr [with_second_argument]) window VUndefined VUndefined [] =
     ([It (VStr "S") with_second_argument VUndefined window], Ret tt,
      [Call 0 with_second_argument [fragment]]) /\
   studio [] 0 with_second_argument [with_second_argument; fragment] = Ret fragment /\
   VUndefined <> fragment) /\
  (testParser studio (VArr [fanned]) window VUndefined VUndefined [] =
     ([Describe (VStr "Set index: 0") [It (VStr "S") fanned (VStr "a") window];
       Describe (VStr "Set index: 1") [It (VStr "S") fanned (VStr "b") window]],
      Ret tt, [Call 1 fanned [fragment]]) /\
   getDomFragment studio fanned (VStr "a") [] =
     ([], Ret panel, [Call 2 fanned [VStr "a"]]) /\
   studio [] 2 fanned [fanned; VStr "a"] = Ret panel /\
   VStr "a" <> panel).
Proof.
  repeat split; try reflexivity; discriminate.
Qed.

Lemma C1_fragment_resolution_witness :
  getDomFragment studio (plain "S") fragment [] = ([], Ret fragment, []) /\
  getDomFragment studio with_panel fragment [] =
    ([], Ret panel, [Call 2 with_panel [fragment]]) /\
  visit studio with_panel fragment window VUndefined [] =
    ([It (VStr "S") with_panel panel window], Ret tt, [Call 2 with_panel [fragment]]) /\
  visit studio guarded_with_panel fragment window VUndefined [] =
    ([It (VStr "S") guarded_with_panel panel window], Ret tt,
     [Call 3 guarded_with_panel [fragment; window; VUndefined];
      Call 2 guarded_with_panel [fragment]]) /\
  visit studio inheriting fragment window (VNum 4) [] =
    ([Describe (VStr "T") [It (VStr "child") (plain "child") panel window]], Ret tt,
     [Call 2 inheriting [fragment]]) /\
  visit studio fanned fragment window VUndefined [] =
    ([Describe (VStr "Set index: 0") [It (VStr "S") fanned (VStr "a") window];
      Describe (VStr "Set index: 1") [It (VStr "S") fanned (VStr "b") window]],
     Ret tt, [Call 1 fanned [fragment]]).
Proof.
  split; [|split; [|split; [|split; [|split]]]].
  - destruct (C1_fragment_resolution studio (plain "S") fragment window VUndefined [])
      as (Hdefault & _).
    apply Hdefault. reflexivity.
  - destruct (C1_fragment_resolution studio with_panel fragment window VUndefined [])
      as (_ & Hcustom & _).
    destruct (Hcustom 2 1 eq_refl) as (Hresolved & _).
    exact Hresolved.
  - destruct (C1_fragment_resolution studio with_panel fragment window VUndefined [])
      as (_ & Hcustom & _).
    destruct (Hcustom 2 1 eq_refl) as (_ & Hdirect & _).
    apply Hdirect; reflexivity.
  - destruct (C1_fragment_resolution studio guarded_with_panel fragment window
                VUndefined []) as (_ & Hcustom & _).
    destruct (Hcustom 2 1 eq_refl) as (_ & _ & Hconditional & _).
    apply (Hconditional 3 3 (VBool true) panel); reflexivity.
  - destruct (C1_fragment_resolution studio inheriting fragment window (VNum 4) [])
      as (_ & Hcustom & _).
    destruct (Hcustom 2 1 eq_refl) as (_ & _ & _ & Hinherit).
    apply (Hinherit panel); reflexivity.
  - destruct (C1_fragment_resolution studio fanned fragment window VUndefined [])
      as (_ & _ & Hfan).
    destruct (Hfan 1 1 [VStr "a"; VStr "b"] eq_refl eq_refl eq_refl) as (Hplain & _).
    apply Hplain. reflexivity.
Defined.

Lemma C2_fan_out_leaf_groups_witness :
  exists regs h',
    visit studio fanned_guarded fragment window VUndefined [] = (regs, Ret tt, h') /\
    exists body0 body1,
      regs = [Describe (VStr "Set index: 0") body0;
              Describe (VStr "Set index: 1") body1].
Proof.
  destruct (C2_fan_out_leaf_groups studio fanned_guarded fragment window VUndefined []
              1 1 [VStr "a"; VStr "b"] eq_refl eq_refl eq_refl)
    as (regs & h' & Hrun & Hlen & Hnth).
  - intros g ga h0 Hg. vm_compute in Hg. inversion Hg. eexists. reflexivity.
  - exists regs, h'. split; [exact Hrun|].
    destruct (Hnth 0) as (body0 & H0 & _); [simpl; lia|].
    destruct (Hnth 1) as (body1 & H1 & _); [simpl; lia|].
    exists body0, body1.
    destruct regs as [|r0 [|r1 [|r2 regs]]]; simpl in Hlen; try discriminate.
    simpl in H0, H1. inversion H0. inversion H1. reflexivity.
Defined.

Lemma C3_fan_out_leaf_guard_witness :
  visit studio fanned_guarded fragment window VUndefined [] =
    ([Describe (VStr "Set index: 0") [It (VStr "S") fanned_guarded (VStr "a") window];
      Describe (VStr "Set index: 1") []],
     Ret tt,
     [Call 1 fanned_guarded [fragment];
      Call 3 fanned_guarded [fragment; window; VUndefined];
      Call 3 fanned_guarded [fragment; window; VUndefined]]) /\
  visit studio fanned fragment window (VNum 7) [] =
    ([Describe (VStr "Set index: 0") [It (VStr "S") fanned (VStr "a") window];
      Describe (VStr "Set index: 1") [It (VStr "S") fanned (VStr "b") window]],
     Ret tt, [Call 1 fanned [fragment]]).
Proof.
  split.
  - destruct (C3_fan_out_leaf_guard studio fanned_guarded fragment window VUndefined []
                1 1 [VStr "a"; VStr "b"] eq_refl eq_refl eq_refl) as (Hguarded & _).
    apply (Hguarded 3 3 eq_refl).
    intros k _. eexists. reflexivity.
  - destruct (C3_fan_out_leaf_guard studio fanned fragment window (VNum 7) []
                1 1 [VStr "a"; VStr "b"] eq_refl eq_refl eq_refl) as (_ & Hplain).
    apply Hplain. reflexivity.
Defined.

Lemma C4_leaf_executor_witness :
  itter (reading 4) fragment window [] =
    ([It (VStr "S") (reading 4) fragment window], Ret tt, []) /\
  test_body studio (reading 4) fragment window [] =
    ([], Ret (VFulfilled VUndefined),
     [Call 4 (reading 4) [fragment; window]; Call 5 VUndefined [VNum 1]]) /\
  run_test studio (reading 10) fragment window [] = Some (Failed (VStr "expected 1")) /\
  run_test studio (reading 6) fragment window [] =
    Some (Failed (VStr "no such element")) /\
  test_body studio (reading 9) fragment window [] =
    ([], Ret VPending, [Call 9 (reading 9) [fragment; window]]) /\
  run_test studio (reading 11) fragment window [] = Some (Failed (VStr "cannot read")).
Proof.
  split; [|split; [|split; [|split; [|split]]]].
  - destruct (C4_leaf_executor studio (reading 4) fragment window [] 4 2 eq_refl)
      as (Hitter & _).
    exact Hitter.
  - destruct (C4_leaf_executor studio (reading 4) fragment window [] 4 2 eq_refl)
      as (_ & _ & Hfulfilled & _).
    destruct (Hfulfilled (VNum 1) 5 1 eq_refl eq_refl) as (Hreturns & _).
    destruct (Hreturns VUndefined eq_refl) as (_ & _ & Hplain).
    apply Hplain. reflexivity.
  - destruct (C4_leaf_executor studio (reading 10) fragment window [] 10 2 eq_refl)
      as (_ & _ & Hfulfilled & _).
    destruct (Hfulfilled (VNum 2) 5 1 eq_refl eq_refl) as (_ & Hthrows).
    destruct (Hthrows (VStr "expected 1") eq_refl) as (_ & Hverdict).
    exact Hverdict.
  - destruct (C4_leaf_executor studio (reading 6) fragment window [] 6 2 eq_refl)
      as (_ & _ & _ & Hrejected & _).
    destruct (Hrejected (VStr "no such element") eq_refl) as (_ & Hverdict).
    exact Hverdict.
  - destruct (C4_leaf_executor studio (reading 9) fragment window [] 9 2 eq_refl)
      as (_ & _ & _ & _ & Hpending & _).
    destruct (Hpending eq_refl) as (Hbody & _).
    exact Hbody.
  - destruct (C4_leaf_executor studio (reading 11) fragment window [] 11 2 eq_refl)
      as (_ & _ & _ & _ & _ & Hsync).
    destruct (Hsync (VStr "cannot read") eq_refl) as (_ & Hverdict).
    exact Hverdict.
Defined.

Lemma C5_root_unwrap_witness :
  to_boolean fragment = true /\
  testParser studio (VArr [feature_F]) window VUndefined VUndefined [] =
  testParser studio (VArr [feature_F]) fragment window VUndefined [] /\
  testParser studio (VArr [feature_F]) window VUndefined VUndefined [] =
  ([Describe (VStr "F") [It (VStr "S") (plain "S") fragment window]], Ret tt, []).
Proof.
  split; [reflexivity|]. split; [|reflexivity].
  apply (C5_root_unwrap studio (VArr [feature_F]) window fragment VUndefined []);
    reflexivity.
Defined.

Lemma C6_inheriting_leaf_witness :
  visit studio inheriting fragment window (VNum 4) [] =
  ([Describe (VStr "T") [It (VStr "child") (plain "child") panel window]], Ret tt,
   [Call 2 inheriting [fragment]]).
Proof.
  apply (C6_inheriting_leaf studio inheriting fragment window (VNum 4) []
           panel [Call 2 inheriting [fragment]]); reflexivity.
Defined.

(** C7 does not hold as the specification states it: with [null] for the
    fragment, [testParser] throws although [tests] is not an array. *)
Lemma C7_counterexample :
  is_array (VStr "tests") = false /\
  testParser studio (VStr "tests") VNull VUndefined VUndefined [] =
  ([], Throw VTypeError, []).
Proof.
  split; reflexivity.
Qed.

Lemma C7_non_array_is_noop_witness :
  testParser studio feature_F fragment window VUndefined [] = ([], Ret tt, []).
Proof.
  apply (C7_non_array_is_noop studio feature_F fragment window VUndefined []);
    reflexivity.
Defined.

Lemma C8_set_failure_propagates_witness :
  testParser studio (VArr ([plain "first"] ++ broken_feature :: [plain "last"]))
    window VUndefined VUndefined [] =
  ([It (VStr "first") (plain "first") fragment window],
   Throw (VStr "no fixture"),
   [Call 8 broken_feature [fragment]]).
Proof.
  apply (C8_set_failure_propagates studio [plain "first"] [plain "last"]
           broken_feature window VUndefined VUndefined fragment window []
           [It (VStr "first") (plain "first") fragment window] [] 8 1
           (VStr "no fixture")); try reflexivity.
  left. reflexivity.
Defined.

Lemma C9_walk_not_total_witness :
  testParser studio (VNum 3) VNull VUndefined VUndefined [] =
    ([], Throw VTypeError, []) /\
  testParser studio (VArr ([plain "first"] ++ VNull :: [plain "last"]))
    fragment window VUndefined [] =
    ([It (VStr "first") (plain "first") fragment window], Throw VTypeError, []) /\
  visit studio (VObj [("name", VStr "x")]) fragment window VUndefined [] =
    ([], Ret tt, []).
Proof.
  destruct (C9_walk_not_total studio) as (Hscope & Hentry & Hskip).
  split; [|split].
  - apply Hscope. reflexivity.
  - apply Hentry; reflexivity.
  - apply Hskip. reflexivity.
Defined.

Lemma C10_actual_must_be_thenable_witness :
  studio [Call 7 (reading 7) [fragment; window]] 5 VUndefined [VNum 1] = Ret VUndefined /\
  test_body studio (reading 7) fragment window [] =
    ([], Throw VTypeError, [Call 7 (reading 7) [fragment; window]]) /\
  run_test studio (reading 7) fragment window [] = Some (Failed VTypeError).
Proof.
  split; [reflexivity|].
  apply (C10_actual_must_be_thenable studio (reading 7) fragment window [] 7 2 (VNum 1));
    reflexivity.
Defined.

(** ** Further properties of the parser *)

Arguments hooks : simpl never.

Section More.

Variable host : host_t.

Lemma forEach_bind (f : value -> M unit) (l1 l2 : list value) :
  forall h, forEach f (l1 ++ l2) h = (forEach f l1 ;; forEach f l2) h.
Proof.
  induction l1 as [|x l1 IH]; intros h.
  - cbn. unfold bind, ret. destruct (forEach f l2 h) as [[r2 o] h2]. reflexivity.
  - cbn. unfold bind. destruct (f x h) as [[rx ox] hx].
    destruct ox as [[]|e]; [|reflexivity].
    rewrite IH. unfold bind.
    destruct (forEach f l1 hx) as [[r1 o1] h1].
    destruct o1 as [[]|e]; [|reflexivity].
    destruct (forEach f l2 h1) as [[r2 o2] h2]. now rewrite app_assoc.
Qed.

Lemma forEach_throws (f : value -> M unit) (l1 l2 : list value) h r1 e h1 :
  forEach f l1 h = (r1, Throw e, h1) ->
  forEach f (l1 ++ l2) h = (r1, Throw e, h1).
Proof.
  intros H1. rewrite forEach_bind. unfold bind. now rewrite H1.
Qed.

Lemma forEach_without (f : value -> M unit) (l1 l2 : list value) (x : value) :
  (forall h, f x h = ([], Ret tt, h)) ->
  forall h, forEach f (l1 ++ x :: l2) h = forEach f (l1 ++ l2) h.
Proof.
  intros Hx h. rewrite !forEach_bind. unfold bind.
  destruct (forEach f l1 h) as [[r1 o1] h1].
  destruct o1 as [[]|e]; [|reflexivity].
  cbn. unfold bind. rewrite Hx. cbn.
  destruct (forEach f l2 h1) as [[r2 o2] h2]. reflexivity.
Qed.

Lemma hooks_run (test d w : value) (h : history) :
  is_nullish test = false ->
  hooks test d w h = (hook_regs test d w, Ret tt, h).
Proof.
  intros Hn. unfold hooks, hook_regs. run.
  destruct (is_function (field test "before"));
    destruct (is_function (field test "beforeEach")); reflexivity.
Qed.

Lemma visit_idle (e d w i : value) (h : history) :
  classify e = IdleGroup -> visit host e d w i h = ([], Ret tt, h).
Proof.
  intros Hk. classified Hk. enter_visit. now run.
Qed.

Lemma to_uint_nonnil (n : nat) : Nat.to_uint n <> Decimal.Nil.
Proof.
  rewrite <- (DecimalNat.Unsigned.of_to n) at 1.
  rewrite DecimalNat.Unsigned.to_of. apply DecimalFacts.unorm_nonnil.
Qed.

Lemma string_of_nat_inj (i j : nat) : string_of_nat i = string_of_nat j -> i = j.
Proof.
  unfold string_of_nat. intros Heq.
  apply (f_equal NilZero.uint_of_string) in Heq.
  rewrite !NilZero.usu in Heq by apply to_uint_nonnil.
  inversion Heq as [Hu]. now apply DecimalNat.Unsigned.to_uint_inj.
Qed.

(** X1.  A feature without a [set] function and with an array of
    [tests], lines 82-90: one group titled by the feature, holding the
    hooks and then what [testParser] registers for [tests] with the same
    fragment and window and no index. *)
Theorem plain_group_registration (test d w i : value) (h : history) rs o h2 :
  classify test = PlainGroup ->
  testParser host (field test "tests") d w VUndefined h = (rs, o, h2) ->
  visit host test d w i h =
  ([Describe (field test "feature") (hook_regs test d w ++ rs)], o, h2).
Proof.
  intros Hk Hrec. classified Hk. enter_visit. run.
  rewrite hooks_run by assumption. run. rewrite Hrec. reflexivity.
Qed.

(** X2.  A feature with a [set] that returns an array, lines 69-81: one
    group titled by the feature, holding the hooks (with the fragment the
    feature was given) and then one group per generated fragment, in
    order, the [k]-th holding what [testParser] registers for [tests] with
    the [k]-th fragment and the index [k]. *)
Theorem fan_out_group_registration (test d w i : value) (h : history) s a
    (l : list value) (rs : nat -> list reg) (hs : nat -> history) :
  classify test = FanOutGroup ->
  field test "set" = VFun s a ->
  host h s test [d] = Ret (VArr l) ->
  hs 0 = h ++ [Call s test [d]] ->
  (forall k, k < List.length l ->
     testParser host (field test "tests") (nth k l VUndefined) w
       (VNum (Z.of_nat k)) (hs k) = (rs k, Ret tt, hs (S k))) ->
  visit host test d w i h =
  ([Describe (field test "feature")
      (hook_regs test d w ++
       map (fun k => Describe (set_index_title k) (rs k)) (seq 0 (List.length l)))],
   Ret tt, hs (List.length l)).
Proof.
  intros Hk Hset Hrun H0 Hrounds. classified Hk.
  enter_visit. run. rewrite Hset. run. rewrite Hrun. run.
  rewrite hooks_run by assumption. run.
  unfold loop_count. cbn. rewrite Nat2Z.id. rewrite <- H0.
  unfold for_loop.
  rewrite (for_from_run _ (fun k => [Describe (set_index_title k) (rs k)]) hs
             (List.length l) 0).
  - now rewrite concat_singletons.
  - intros k [_ Hlt]. simpl in Hlt. run. rewrite (Hrounds k Hlt). reflexivity.
Qed.

(** X3.  A [set] that returns [null] or [undefined]: a scenario throws a
    TypeError with nothing registered; a feature throws it from inside its
    group, which is registered with its hooks and nothing else. *)
Theorem fan_out_over_nothing (test d w i : value) (h : history) s a r :
  field test "set" = VFun s a ->
  host h s test [d] = Ret r ->
  is_nullish r = true ->
  (classify test = FanOutLeaf ->
   visit host test d w i h = ([], Throw VTypeError, h ++ [Call s test [d]])) /\
  (classify test = FanOutGroup ->
   visit host test d w i h =
   ([Describe (field test "feature") (hook_regs test d w)], Throw VTypeError,
    h ++ [Call s test [d]])).
Proof.
  intros Hset Hrun Hr. pose proof (nullish_get_prop r "length" Hr) as Hlen.
  split; intros Hk; classified Hk; enter_visit; run; rewrite Hset; run;
    rewrite Hrun; run.
  - reflexivity.
  - rewrite hooks_run by assumption. run. now rewrite app_nil_r.
Qed.

(** X4.  A [set] that returns an empty array: a scenario registers
    nothing and [given] is not called; a feature registers its group with
    the hooks only. *)
Theorem fan_out_over_empty (test d w i : value) (h : history) s a :
  field test "set" = VFun s a ->
  host h s test [d] = Ret (VArr []) ->
  (classify test = FanOutLeaf ->
   visit host test d w i h = ([], Ret tt, h ++ [Call s test [d]])) /\
  (classify test = FanOutGroup ->
   visit host test d w i h =
   ([Describe (field test "feature") (hook_regs test d w)], Ret tt,
    h ++ [Call s test [d]])).
Proof.
  intros Hset Hrun.
  split; intros Hk; classified Hk; enter_visit; run; rewrite Hset; run;
    rewrite Hrun; run.
  - reflexivity.
  - rewrite hooks_run by assumption. run. now rewrite app_nil_r.
Qed.

(** X5.  A scenario with a [given] function, no [set] and no [inherit],
    lines 108-110: when [given] returns a falsy value nothing is
    registered and [getDomFragment] is not called; when [given] throws,
    the exception leaves [testParser]. *)
Theorem unmet_given_registers_nothing (test d w i : value) (h : history) g ga :
  classify test = ConditionalLeaf ->
  field test "given" = VFun g ga ->
  (forall r, host h g test [d; w; i] = Ret r -> to_boolean r = false ->
             visit host test d w i h = ([], Ret tt, h ++ [Call g test [d; w; i]])) /\
  (forall e, host h g test [d; w; i] = Throw e ->
             visit host test d w i h = ([], Throw e, h ++ [Call g test [d; w; i]])).
Proof.
  intros Hk Hg. classified Hk. split.
  - intros r Hr Hfalse. enter_visit. run. rewrite Hg. run. rewrite Hr. run.
    reflexivity.
  - intros e He. enter_visit. run. rewrite Hg. run. rewrite He. reflexivity.
Qed.

(** X6.  [testParser] on an array is the sequence of its runs on the two
    parts of the array: the registrations of the first part come first,
    and an exception in the first part leaves the second unvisited. *)
Theorem testParser_append (l1 l2 : list value) (d w i : value) (h : history) r1 h1 :
  (testParser host (VArr l1) d w i h = (r1, Ret tt, h1) ->
   testParser host (VArr (l1 ++ l2)) d w i h =
   (let '(r2, o, h2) := testParser host (VArr l2) d w i h1 in (r1 ++ r2, o, h2))) /\
  (forall e,
     testParser host (VArr l1) d w i h = (r1, Throw e, h1) ->
     testParser host (VArr (l1 ++ l2)) d w i h = (r1, Throw e, h1)).
Proof.
  rewrite !testParser_array.
  destruct (unwrap d w) as [p|e0].
  - split.
    + intros H1. now apply forEach_app.
    + intros e H1. now apply forEach_throws.
  - split.
    + intros H1. discriminate.
    + intros e H1. exact H1.
Qed.

(** X7.  Scenarios that are nothing but a scenario, without a
    [getDomFragment] function, are registered one test each, in the order
    of the array, on the fragment and window of the call, and no user
    function is called. *)
Theorem direct_leaves_in_order (l : list value) (d0 w0 i d w : value) (h : history) :
  unwrap d0 w0 = Ret (d, w) ->
  Forall (fun t => classify t = DirectLeaf /\
                   is_function (field t "getDomFragment") = false) l ->
  testParser host (VArr l) d0 w0 i h =
  (map (fun t => It (field t "scenario") t d w) l, Ret tt, h).
Proof.
  intros Hu Hl. rewrite testParser_array, Hu. cbn [fst snd].
  induction Hl as [|t l [Hk Hg] _ IH].
  - reflexivity.
  - cbn. unfold bind.
    rewrite (direct_leaf_run host t d w i h d h Hk
               (getDomFragment_default host t d h Hg)).
    cbn in IH. rewrite IH. reflexivity.
Qed.

(** X8.  An element that is skipped, or a feature with neither a [set]
    function nor an array of [tests], changes nothing: the array parses
    as the array without it. *)
Theorem inert_element_is_transparent (l1 l2 : list value) (e d w i : value)
    (h : history) :
  classify e = Skipped \/ classify e = IdleGroup ->
  testParser host (VArr (l1 ++ e :: l2)) d w i h =
  testParser host (VArr (l1 ++ l2)) d w i h.
Proof.
  intros He. rewrite !testParser_array.
  destruct (unwrap d w) as [p|e0]; [|reflexivity].
  apply forEach_without. intros h'.
  destruct He as [He|He]; [now apply visit_skipped | now apply visit_idle].
Qed.

(** X9.  The index reaches [given] and nothing else: a test object that
    is neither a scenario with a [set] nor a conditional scenario is
    parsed the same whatever the index. *)
Theorem index_only_matters_to_given (test d w i i' : value) (h : history) :
  classify test <> FanOutLeaf ->
  classify test <> ConditionalLeaf ->
  visit host test d w i h = visit host test d w i' h.
Proof.
  intros Hfan Hcond.
  destruct (classify test) eqn:Hk; try congruence; clear Hfan Hcond.
  - assert (Hn : is_nullish test = true).
    { unfold classify in Hk. destruct (is_nullish test); [reflexivity|].
      repeat match type of Hk with
             | context [if ?b then _ else _] => destruct b
             end; discriminate. }
    now rewrite !visit_nullish.
  - classified Hk. enter_visit. run. reflexivity.
  - classified Hk. enter_visit. run. reflexivity.
  - now rewrite !visit_idle.
  - classified Hk. enter_visit. run. reflexivity.
  - classified Hk. enter_visit. run. reflexivity.
  - now rewrite !visit_skipped.
Qed.

(** X10.  Lines 61-64 change the pair of fragment and window only when
    the window is [undefined] and the fragment has a truthy [document],
    and applying them to their own result changes nothing: a recursive
    call on the same pair does not unwrap again. *)
Theorem unwrap_settles (d w d' w' : value) :
  unwrap d w = Ret (d', w') ->
  ((d', w') = (d, w) \/
   (w = VUndefined /\ d' = field d "document" /\ w' = d /\ to_boolean d' = true)) /\
  unwrap d' w' = Ret (d', w').
Proof.
  unfold unwrap. intros Hu.
  destruct (get_prop d "document") as [x|e] eqn:Hdoc; [|discriminate].
  assert (Hn : is_nullish d = false).
  { destruct d; simpl in *; try discriminate; reflexivity. }
  rewrite (get_prop_field d _ Hn) in Hdoc. inversion Hdoc; subst x.
  destruct (to_boolean (field d "document")) eqn:Ht;
    destruct (is_undefined w) eqn:Hw; simpl in Hu; injection Hu as <- <-.
  - split.
    + right. destruct w; try discriminate. auto.
    + destruct (get_prop_total (field d "document") "document"
                  (truthy_not_nullish _ Ht)) as [y ->].
      assert (Hd : is_undefined d = false).
      { destruct d; simpl in *; try discriminate; reflexivity. }
      now rewrite Hd, andb_false_r.
  - split; [now left|].
    rewrite (get_prop_field d _ Hn), Ht, Hw. reflexivity.
  - split; [now left|].
    rewrite (get_prop_field d _ Hn), Ht. reflexivity.
  - split; [now left|].
    rewrite (get_prop_field d _ Hn), Ht. reflexivity.
Qed.

(** X12.  The titles of the groups of a [set] tell the positions apart. *)
Theorem set_index_titles_differ (i j : nat) :
  i <> j -> set_index_title i <> set_index_title j.
Proof.
  unfold set_index_title. intros Hij Heq. inversion Heq as [Hs].
  now apply Hij, string_of_nat_inj.
Qed.

(** X13.  A scenario whose [comparison] is not a function: when the
    promise of [getActual] is fulfilled the test passes, with nothing
    compared. *)
Theorem missing_comparison_passes (test d w : value) (h : history) ga a v :
  field test "getActual" = VFun ga a ->
  host h ga test [d; w] = Ret (VFulfilled v) ->
  is_function (field test "comparison") = false ->
  test_body host test d w h = ([], Ret (VFulfilled v), h ++ [Call ga test [d; w]]) /\
  run_test host test d w h = Some Passed.
Proof.
  intros Hga Hv Hc.
  assert (Hbody : test_body host test d w h =
                  ([], Ret (VFulfilled v), h ++ [Call ga test [d; w]])).
  { rewrite (test_body_actual host test d w h ga a _ Hga Hv).
    unfold invoke, promise_then, react. cbn. now rewrite Hc. }
  split; [exact Hbody|]. unfold run_test. now rewrite Hbody.
Qed.

(** X14.  What [comparison] returns is not looked at: when the promise of
    [getActual] is fulfilled and [comparison] returns a value without a
    [then] to call, [false] included, the test passes. *)
Theorem returned_comparison_passes (test d w : value) (h : history) ga a v c ca x :
  field test "getActual" = VFun ga a ->
  host h ga test [d; w] = Ret (VFulfilled v) ->
  field test "comparison" = VFun c ca ->
  host (h ++ [Call ga test [d; w]]) c VUndefined [v] = Ret x ->
  is_thenable x = false ->
  run_test host test d w h = Some Passed.
Proof.
  intros Hga Hv Hc Hx Hth. unfold run_test.
  rewrite (test_body_actual host test d w h ga a _ Hga Hv), Hc.
  unfold invoke, promise_then, react, attempt. run.
  rewrite Hx, (resolved_plain x Hth). reflexivity.
Qed.

(** X15.  A test object whose [getActual] is not a function: [itter]
    registers its test all the same, the body of that test throws a
    TypeError before any user function is called, and the test fails. *)
Theorem missing_getActual_fails (test d w : value) (h : history) :
  is_nullish test = false ->
  is_function (field test "getActual") = false ->
  itter test d w h = ([It (field test "scenario") test d w], Ret tt, h) /\
  registered_body host (It (field test "scenario") test d w) =
    Some (test_body host test d w) /\
  test_body host test d w h = ([], Throw VTypeError, h) /\
  run_test host test d w h = Some (Failed VTypeError).
Proof.
  intros Hn Hga.
  split; [run; reflexivity|]. split; [reflexivity|].
  assert (Hbody : test_body host test d w h = ([], Throw VTypeError, h)).
  { unfold test_body. apply bind_throw. run.
    destruct (field test "getActual"); try discriminate; reflexivity. }
  split; [exact Hbody|]. unfold run_test. now rewrite Hbody.
Qed.

(** X16.  When [getActual] returns an object with a [then] function of
    its own, the body of the test calls that function, on the object,
    with [test.comparison] as its only argument, and returns or throws
    what it does; the parser itself does not call [comparison]. *)
Theorem own_then_is_called (test d w : value) (h : history) ga a fields t ta :
  field test "getActual" = VFun ga a ->
  host h ga test [d; w] = Ret (VObj fields) ->
  lookup "then" fields = VFun t ta ->
  test_body host test d w h =
  ([], host (h ++ [Call ga test [d; w]]) t (VObj fields) [field test "comparison"],
   (h ++ [Call ga test [d; w]]) ++ [Call t (VObj fields) [field test "comparison"]]).
Proof.
  intros Hga Hr Ht.
  rewrite (test_body_actual host test d w h ga a _ Hga Hr).
  unfold invoke. cbn. unfold bind, prop, lift. cbn. rewrite Ht. cbn.
  destruct (host _ t _ _); reflexivity.
Qed.

End More.

Lemma plain_group_registration_witness :
  visit studio hooked_feature fragment window (VNum 2) [] =
  ([Describe (VStr "F")
      [Before hooked_feature window;
       BeforeEach hooked_feature fragment window;
       It (VStr "S") (plain "S") fragment window]],
   Ret tt, []).
Proof.
  apply (plain_group_registration studio hooked_feature fragment window (VNum 2) []
           [It (VStr "S") (plain "S") fragment window] (Ret tt) []); reflexivity.
Defined.

Lemma fan_out_group_registration_witness :
  visit studio fanned_feature fragment window VUndefined [] =
  ([Describe (VStr "F")
      [BeforeEach fanned_feature fragment window;
       Describe (VStr "Set index: 0") [It (VStr "S") (plain "S") (VStr "a") window];
       Describe (VStr "Set index: 1") [It (VStr "S") (plain "S") (VStr "b") window]]],
   Ret tt, [Call 1 fanned_feature [fragment]]).
Proof.
  apply (fan_out_group_registration studio fanned_feature fragment window VUndefined []
           1 1 [VStr "a"; VStr "b"]
           (fun k => [It (VStr "S") (plain "S") (nth k [VStr "a"; VStr "b"] VUndefined)
                        window])
           (fun _ => [Call 1 fanned_feature [fragment]])); try reflexivity.
  intros k Hk. destruct k as [|[|k]]; try reflexivity.
  simpl in Hk. lia.
Defined.

Lemma fan_out_over_nothing_witness :
  visit studio (lost_scenario 12) fragment window VUndefined [] =
    ([], Throw VTypeError, [Call 12 (lost_scenario 12) [fragment]]) /\
  visit studio (lost_feature 12) fragment window VUndefined [] =
    ([Describe (VStr "F") [Before (lost_feature 12) window]], Throw VTypeError,
     [Call 12 (lost_feature 12) [fragment]]).
Proof.
  split.
  - destruct (fan_out_over_nothing studio (lost_scenario 12) fragment window VUndefined
                [] 12 1 VUndefined eq_refl eq_refl eq_refl) as (Hleaf & _).
    apply Hleaf. reflexivity.
  - destruct (fan_out_over_nothing studio (lost_feature 12) fragment window VUndefined
                [] 12 1 VUndefined eq_refl eq_refl eq_refl) as (_ & Hgroup).
    apply Hgroup. reflexivity.
Defined.

Lemma fan_out_over_empty_witness :
  visit workshop (lost_scenario 20) fragment window VUndefined [] =
    ([], Ret tt, [Call 20 (lost_scenario 20) [fragment]]) /\
  visit workshop (lost_feature 20) fragment window VUndefined [] =
    ([Describe (VStr "F") [Before (lost_feature 20) window]], Ret tt,
     [Call 20 (lost_feature 20) [fragment]]).
Proof.
  split.
  - destruct (fan_out_over_empty workshop (lost_scenario 20) fragment window VUndefined
                [] 20 1 eq_refl eq_refl) as (Hleaf & _).
    apply Hleaf. reflexivity.
  - destruct (fan_out_over_empty workshop (lost_feature 20) fragment window VUndefined
                [] 20 1 eq_refl eq_refl) as (_ & Hgroup).
    apply Hgroup. reflexivity.
Defined.

Lemma unmet_given_registers_nothing_witness :
  visit workshop unmet fragment window (VNum 0) [] =
    ([], Ret tt, [Call 23 unmet [fragment; window; VNum 0]]) /\
  visit workshop (VObj [("scenario", VStr "S"); ("given", VFun 8 3)])
    fragment window (VNum 0) [] =
    ([], Throw (VStr "no fixture"),
     [Call 8 (VObj [("scenario", VStr "S"); ("given", VFun 8 3)])
        [fragment; window; VNum 0]]).
Proof.
  split.
  - destruct (unmet_given_registers_nothing workshop unmet fragment window (VNum 0) []
                23 3 eq_refl eq_refl) as (Hfalsy & _).
    apply (Hfalsy (VBool false)); reflexivity.
  - destruct (unmet_given_registers_nothing workshop
                (VObj [("scenario", VStr "S"); ("given", VFun 8 3)])
                fragment window (VNum 0) [] 8 3 eq_refl eq_refl) as (_ & Hthrows).
    apply Hthrows. reflexivity.
Defined.

Lemma testParser_append_witness :
  testParser studio (VArr ([plain "first"] ++ [with_panel])) fragment window
    VUndefined [] =
    ([It (VStr "first") (plain "first") fragment window;
      It (VStr "S") with_panel panel window],
     Ret tt, [Call 2 with_panel [fragment]]) /\
  testParser studio (VArr ([plain "first"; VNull] ++ [with_panel])) fragment window
    VUndefined [] =
    ([It (VStr "first") (plain "first") fragment window], Throw VTypeError, []).
Proof.
  split.
  - destruct (testParser_append studio [plain "first"] [with_panel] fragment window
                VUndefined [] [It (VStr "first") (plain "first") fragment window] [])
      as (Hdone & _).
    apply Hdone. reflexivity.
  - destruct (testParser_append studio [plain "first"; VNull] [with_panel] fragment
                window VUndefined []
                [It (VStr "first") (plain "first") fragment window] [])
      as (_ & Hthrown).
    apply Hthrown. reflexivity.
Defined.

Lemma direct_leaves_in_order_witness :
  testParser studio (VArr [plain "a"; plain "b"; plain "c"]) window VUndefined
    (VNum 1) [] =
  ([It (VStr "a") (plain "a") fragment window;
    It (VStr "b") (plain "b") fragment window;
    It (VStr "c") (plain "c") fragment window], Ret tt, []).
Proof.
  apply (direct_leaves_in_order studio [plain "a"; plain "b"; plain "c"]
           window VUndefined (VNum 1) fragment window []).
  - reflexivity.
  - repeat constructor.
Defined.

Lemma inert_element_is_transparent_witness :
  testParser studio (VArr ([plain "first"] ++ misspelt :: [plain "last"]))
    fragment window VUndefined [] =
  testParser studio (VArr ([plain "first"] ++ [plain "last"]))
    fragment window VUndefined [].
Proof.
  apply (inert_element_is_transparent studio [plain "first"] [plain "last"] misspelt
           fragment window VUndefined []).
  right. reflexivity.
Defined.

Lemma index_only_matters_to_given_witness :
  visit studio inheriting fragment window (VNum 1) [] =
  visit studio inheriting fragment window VUndefined [].
Proof.
  apply (index_only_matters_to_given studio inheriting fragment window (VNum 1)
           VUndefined []); discriminate.
Defined.

Lemma unwrap_settles_witness :
  ((fragment, window) = (window, VUndefined) \/
   (VUndefined = VUndefined /\ fragment = field window "document" /\
    window = window /\ to_boolean fragment = true)) /\
  unwrap fragment window = Ret (fragment, window).
Proof.
  apply (unwrap_settles window VUndefined fragment window). reflexivity.
Defined.

Lemma set_index_titles_differ_witness :
  set_index_title 1 <> set_index_title 10.
Proof.
  apply (set_index_titles_differ 1 10). discriminate.
Defined.

Lemma missing_comparison_passes_witness :
  test_body studio unchecked fragment window [] =
    ([], Ret (VFulfilled (VNum 1)), [Call 4 unchecked [fragment; window]]) /\
  run_test studio unchecked fragment window [] = Some Passed.
Proof.
  apply (missing_comparison_passes studio unchecked fragment window [] 4 2 (VNum 1));
    reflexivity.
Defined.

Lemma returned_comparison_passes_witness :
  workshop [Call 4 answered [fragment; window]] 23 VUndefined [VNum 1] =
    Ret (VBool false) /\
  run_test workshop answered fragment window [] = Some Passed.
Proof.
  split; [reflexivity|].
  apply (returned_comparison_passes workshop answered fragment window [] 4 2 (VNum 1)
           23 1 (VBool false)); reflexivity.
Defined.

Lemma missing_getActual_fails_witness :
  itter (plain "S") fragment window [] =
    ([It (VStr "S") (plain "S") fragment window], Ret tt, []) /\
  registered_body studio (It (VStr "S") (plain "S") fragment window) =
    Some (test_body studio (plain "S") fragment window) /\
  test_body studio (plain "S") fragment window [] = ([], Throw VTypeError, []) /\
  run_test studio (plain "S") fragment window [] = Some (Failed VTypeError).
Proof.
  apply (missing_getActual_fails studio (plain "S") fragment window []); reflexivity.
Defined.

Lemma own_then_is_called_witness :
  test_body workshop homemade fragment window [] =
  ([], Ret (VStr "subscribed"),
   [Call 21 homemade [fragment; window];
    Call 22 (VObj [("then", VFun 22 2)]) [VFun 5 1]]).
Proof.
  apply (own_then_is_called workshop homemade fragment window [] 21 2
           [("then", VFun 22 2)] 22 2); reflexivity.
Defined.
